(** * Dr. Uncle: the symptom-to-diagnosis client of [index.py]

    A shallow embedding of [predict_disease_with_gemini] and of the
    [/predict] view of [index.py], together with the properties the
    specification states about them.

    The Python values that flow through the code are the values the [json]
    module produces.  Exceptions are explicit: a computation yields either a
    value or the exception it raises, and the two [except] clauses of the
    retry loop dispatch on the class of the exception, in the order in which
    they are written.  The calls to [requests.post] and to [time.sleep] are
    recorded in a trace, so that the number of attempts and the backoff
    delays can be stated.

    The script of the chat page, which calls [/predict] and shows its
    answer, is embedded in the same way, by the effects it has on the page
    and the request it sends. *)

From Stdlib Require Import ZArith List String Ascii Bool Lia.
Import ListNotations.

Local Open Scope string_scope.
Local Open Scope list_scope.
Local Open Scope Z_scope.

Set Warnings "-register-all".

(** ** Python values and exceptions *)

(** The values [json.loads] and [response.json()] build: [None], [bool],
    [int], [float] (kept as its binary64 bit pattern, never computed with),
    [str], [list] and [dict].  A [dict] keeps its insertion order, hence the
    association list; its keys are strings. *)
Inductive json : Type :=
| JNull
| JBool (b : bool)
| JInt (n : Z)
| JFloat (bits : Z)
| JStr (s : string)
| JList (l : list json)
| JDict (d : list (string * json)).

(** The exception classes the code can meet.  [RequestsJSONDecodeError] is
    [requests.exceptions.JSONDecodeError], which derives from both
    [RequestException] and [json.JSONDecodeError]. *)
Inductive exn : Type :=
| ConnectionError
| Timeout
| HTTPError
| RequestsJSONDecodeError
| OtherRequestException (name : string)
| JSONDecodeError
| IndexError
| KeyError
| AttributeError
| TypeError
| UnboundLocalError
| UnicodeEncodeError
| OtherException (name : string).

(** [isinstance(e, requests.exceptions.RequestException)] *)
Definition is_RequestException (e : exn) : bool :=
  match e with
  | ConnectionError | Timeout | HTTPError
  | RequestsJSONDecodeError | OtherRequestException _ => true
  | _ => false
  end.

(** [isinstance(e, json.JSONDecodeError)] *)
Definition is_JSONDecodeError (e : exn) : bool :=
  match e with
  | JSONDecodeError | RequestsJSONDecodeError => true
  | _ => false
  end.

(** A computation that returns a value or raises. *)
Inductive result (A : Type) : Type :=
| Value (a : A)
| Raise (e : exn).
Arguments Value {A} a.
Arguments Raise {A} e.

Definition bind {A B : Type} (m : result A) (k : A -> result B) : result B :=
  match m with
  | Value a => k a
  | Raise e => Raise e
  end.

Notation "x <- m ;; k" := (bind m (fun x => k))
  (at level 100, m at next level, right associativity).

(** What a call yields once the loop that contains it is bounded by fuel. *)
Inductive outcome (A : Type) : Type :=
| Returned (a : A)
| Raised (e : exn)
| OutOfFuel.
Arguments Returned {A} a.
Arguments Raised {A} e.
Arguments OutOfFuel {A}.

(** ** Dictionary and sequence access *)

Fixpoint lookup (k : string) (d : list (string * json)) : option json :=
  match d with
  | [] => None
  | (k', v) :: d' => if String.eqb k k' then Some v else lookup k d'
  end.

(** [o.get(k, default)]: only a [dict] has the method. *)
Definition get (o : json) (k : string) (default : json) : result json :=
  match o with
  | JDict d =>
      Value (match lookup k d with Some v => v | None => default end)
  | _ => Raise AttributeError
  end.

(** [o[0]]: the first element of a list or the first character of a string,
    [IndexError] when there is none; a [dict] of string keys has no key [0];
    the other values are not subscriptable. *)
Definition item0 (o : json) : result json :=
  match o with
  | JList (x :: _) => Value x
  | JList [] => Raise IndexError
  | JStr (String c _) => Value (JStr (String c EmptyString))
  | JStr EmptyString => Raise IndexError
  | JDict _ => Raise KeyError
  | JNull | JBool _ | JInt _ | JFloat _ => Raise TypeError
  end.

(** Field of a value seen as a record: [None] when the value is not a
    [dict] or has no such key. *)
Definition field (k : string) (v : json) : option json :=
  match v with
  | JDict d => lookup k d
  | _ => None
  end.

(** ** The HTTP response and the trace *)

(** A [requests.Response] as the code observes it: its status code and what
    its [json()] method yields. *)
Record response : Type := mkResponse {
  status_code : Z;
  response_json : result json
}.

(** [response.raise_for_status()] raises [HTTPError] for the client and
    server error statuses, 400 to 599, and for no other status. *)
Definition raise_for_status (r : response) : result unit :=
  if (400 <=? status_code r) && (status_code r <? 600)
  then Raise HTTPError
  else Value tt.

(** The observable actions of one call: the [n]-th call of [requests.post]
    (counted from 0) and [time.sleep(seconds)]. *)
Inductive event : Type :=
| Post (attempt : nat)
| Sleep (seconds : Z).

(** ** The two error dictionaries *)

Definition parse_error_result : json :=
  JDict [("predicted_disease", JStr "Error");
         ("description",
          JStr "Failed to parse API response. The model may have returned an invalid format.");
         ("precautions", JList []);
         ("home_remedies", JList []);
         ("language", JStr "English")].

Definition connect_error_result : json :=
  JDict [("predicted_disease", JStr "Error");
         ("description",
          JStr "Failed to connect to the prediction service after multiple retries.");
         ("precautions", JList []);
         ("home_remedies", JList []);
         ("language", JStr "English")].

(** ** Serialisation with sorted keys *)

(** [json.dumps(v, sort_keys=True)] writes the entries of every dictionary,
    at every depth, in the order of their keys.  Python orders strings by
    code point, which is the order of their UTF-8 bytes. *)
Fixpoint insert_entry (k : string) (v : json) (d : list (string * json))
  : list (string * json) :=
  match d with
  | [] => [(k, v)]
  | (k', v') :: d' =>
      if String.leb k k' then (k, v) :: d else (k', v') :: insert_entry k v d'
  end.

Definition sort_entries (d : list (string * json)) : list (string * json) :=
  fold_right (fun kv sorted => insert_entry (fst kv) (snd kv) sorted) [] d.

Fixpoint sort_keys (v : json) : json :=
  match v with
  | JList l => JList (map sort_keys l)
  | JDict d =>
      JDict (sort_entries (map (fun kv => (fst kv, sort_keys (snd kv))) d))
  | _ => v
  end.

(** ** The client *)

Definition max_retries : Z := 3.

(** Which [except] clause of the loop catches an exception: the clauses are
    tried in the order of the source, [RequestException] first. *)
Inductive handler : Type :=
| RetryHandler
| DecodeHandler
| NoHandler.

Definition except_clause (e : exn) : handler :=
  if is_RequestException e then RetryHandler
  else if is_JSONDecodeError e then DecodeHandler
  else NoHandler.

Section Client.

(** [json.loads] on a string: the decoder of the Python library. *)
Variable json_loads : string -> result json.

(** The standard output of the process: whether it can encode the message
    that the second [except] clause prints for a given [result_text].
    [print] raises [UnicodeEncodeError] when it cannot. *)
Variable stdout_encodes : json -> bool.

(** The endpoint: what the [n]-th call of [requests.post] yields for the
    request built from [symptoms_input].  The prompt, the payload, the
    headers and the URL are fixed functions of [symptoms_input]. *)
Variable post : json -> nat -> result response.

(** [json.loads(x)] on any value: only a string is accepted. *)
Definition json_loads_value (x : json) : result json :=
  match x with
  | JStr s => json_loads s
  | _ => Raise TypeError
  end.

(** The chained lookups of the source: the text of the first part of the
    content of the first candidate, with a default at every [get]. *)
Definition result_text_of (r : response) : result json :=
  envelope <- response_json r ;;
  candidates <- get envelope "candidates" (JList [JDict []]) ;;
  candidate <- item0 candidates ;;
  content <- get candidate "content" (JDict []) ;;
  parts <- get content "parts" (JList [JDict []]) ;;
  part <- item0 parts ;;
  get part "text" (JStr "{}").

(** The statements of the [try] block up to the assignment of
    [result_text]. *)
Definition fetch_text (symptoms_input : json) (calls : nat) : result json :=
  r <- post symptoms_input calls ;;
  _ <- raise_for_status r ;;
  result_text_of r.

(** The [while] loop.  [retries] and [delay] are the variables of the
    source; [result_text] is [None] as long as the variable is unbound;
    [calls] counts the calls of [requests.post] made so far.  The second
    [except] clause first formats its message, which reads [result_text],
    then prints it, which fails when the standard output cannot encode it,
    and only then returns.  The message of the first clause, the text of
    the request exception and the delay, is not modelled. *)
Fixpoint while_loop (fuel : nat) (symptoms_input : json)
    (retries delay : Z) (result_text : option json) (calls : nat)
  : outcome json * list event :=
  match fuel with
  | O => (OutOfFuel, [])
  | S fuel' =>
      if retries <? max_retries then
        let except (e : exn) (result_text : option json) :=
          match except_clause e with
          | RetryHandler =>
              let '(o, tr) :=
                while_loop fuel' symptoms_input (retries + 1) (delay * 2)
                           result_text (S calls) in
              (o, Sleep delay :: tr)
          | DecodeHandler =>
              match result_text with
              | Some text =>
                  if stdout_encodes text
                  then (Returned parse_error_result, [])
                  else (Raised UnicodeEncodeError, [])
              | None => (Raised UnboundLocalError, [])
              end
          | NoHandler => (Raised e, [])
          end in
        let '(o, tr) :=
          match fetch_text symptoms_input calls with
          | Raise e => except e result_text
          | Value text =>
              match json_loads_value text with
              | Value parsed_json => (Returned parsed_json, [])
              | Raise e => except e (Some text)
              end
          end in
        (o, Post calls :: tr)
      else (Returned connect_error_result, [])
  end.

(** The statement that ends a call: [return parsed_json], the [return] of
    the second [except] clause, the [return] after the loop, or an
    exception that no clause catches. *)
Inductive exit : Type :=
| ReturnParsed
| ReturnParseError
| ReturnConnectError
| Propagates (e : exn)
| Unfinished.

(** The loop again, for the statement that ends it. *)
Fixpoint while_loop_exit (fuel : nat) (symptoms_input : json)
    (retries delay : Z) (result_text : option json) (calls : nat) : exit :=
  match fuel with
  | O => Unfinished
  | S fuel' =>
      if retries <? max_retries then
        let except (e : exn) (result_text : option json) :=
          match except_clause e with
          | RetryHandler =>
              while_loop_exit fuel' symptoms_input (retries + 1) (delay * 2)
                              result_text (S calls)
          | DecodeHandler =>
              match result_text with
              | Some text =>
                  if stdout_encodes text
                  then ReturnParseError
                  else Propagates UnicodeEncodeError
              | None => Propagates UnboundLocalError
              end
          | NoHandler => Propagates e
          end in
        match fetch_text symptoms_input calls with
        | Raise e => except e result_text
        | Value text =>
            match json_loads_value text with
            | Value parsed_json => ReturnParsed
            | Raise e => except e (Some text)
            end
        end
      else ReturnConnectError
  end.

(** The loop runs its body at most [max_retries] times and tests its
    condition once more. *)
Definition loop_fuel : nat := S (Z.to_nat max_retries).

Definition predict_disease_with_gemini (symptoms_input : json)
  : outcome json * list event :=
  while_loop loop_fuel symptoms_input 0 1 None 0.

Definition exit_of (symptoms_input : json) : exit :=
  while_loop_exit loop_fuel symptoms_input 0 1 None 0.

(** ** The request handler *)

Record http_response : Type := mkHttp {
  http_status : Z;
  http_body : json
}.

(** [jsonify(result)]: a 200 response whose body is the value written with
    sorted keys, as Flask does by default. *)
Definition jsonify (v : json) : http_response :=
  {| http_status := 200; http_body := sort_keys v |}.

(** The view of [POST /predict], applied to the decoded body of the
    request.  An exception that leaves the view is not answered by the
    view itself. *)
Definition predict (request_json : json) : outcome http_response :=
  match get request_json "symptoms" JNull with
  | Raise e => Raised e
  | Value symptoms =>
      match fst (predict_disease_with_gemini symptoms) with
      | Returned v => Returned (jsonify v)
      | Raised e => Raised e
      | OutOfFuel => OutOfFuel
      end
  end.

End Client.

Arguments predict_disease_with_gemini
  json_loads stdout_encodes post symptoms_input : assert.
Arguments predict json_loads stdout_encodes post request_json : assert.

(** ** Observations on a trace *)

Definition is_post (ev : event) : bool :=
  match ev with Post _ => true | Sleep _ => false end.

(** The number of calls of [requests.post]. *)
Definition attempts (tr : list event) : nat :=
  List.length (filter is_post tr).

(** The durations slept, in order. *)
Fixpoint delays (tr : list event) : list Z :=
  match tr with
  | [] => []
  | Sleep d :: tr' => d :: delays tr'
  | Post _ :: tr' => delays tr'
  end.

Definition total_sleep (tr : list event) : Z :=
  fold_right Z.add 0 (delays tr).




(** ** The vocabulary of the specification *)

(** A transport failure as the code sees one: [requests.post] raises a
    [RequestException] (connection error, timeout, ...) or the status makes
    [raise_for_status] raise. *)
Definition transport_fails (o : result response) : bool :=
  match o with
  | Raise e => is_RequestException e
  | Value r => (400 <=? status_code r) && (status_code r <? 600)
  end.


(** An envelope that lacks an expected field: no [candidates] entry, a
    first candidate without [content], a content without [parts], or a
    first part without [text]. *)
Inductive lacks_field : json -> Prop :=
| no_candidates d :
    lookup "candidates" d = None ->
    lacks_field (JDict d)
| no_content d dc cs :
    lookup "candidates" d = Some (JList (JDict dc :: cs)) ->
    lookup "content" dc = None ->
    lacks_field (JDict d)
| no_parts d dc cs dn :
    lookup "candidates" d = Some (JList (JDict dc :: cs)) ->
    lookup "content" dc = Some (JDict dn) ->
    lookup "parts" dn = None ->
    lacks_field (JDict d)
| no_text d dc cs dn dp ps :
    lookup "candidates" d = Some (JList (JDict dc :: cs)) ->
    lookup "content" dc = Some (JDict dn) ->
    lookup "parts" dn = Some (JList (JDict dp :: ps)) ->
    lookup "text" dp = None ->
    lacks_field (JDict d).

Definition diagnosis_fields : list string :=
  ["predicted_disease"; "description"; "precautions"; "home_remedies";
   "language"].

Definition is_some {A : Type} (o : option A) : bool :=
  match o with Some _ => true | None => false end.

(** A JSON object with exactly the five fields of a DiagnosisResult. *)
Definition five_fields (v : json) : bool :=
  match v with
  | JDict d =>
      Nat.eqb (List.length d) 5 &&
      forallb (fun k => is_some (lookup k d)) diagnosis_fields
  | _ => false
  end.

(** Every one of the five fields is present and not null. *)
Definition fully_populated (v : json) : bool :=
  forallb (fun k => match field k v with
                    | Some JNull | None => false
                    | Some _ => true
                    end) diagnosis_fields.

Definition list_length_le (n : nat) (o : option json) : bool :=
  match o with
  | Some (JList l) => Nat.leb (List.length l) n
  | _ => false
  end.

Definition is_error (v : json) : bool :=
  match field "predicted_disease" v with
  | Some (JStr s) => String.eqb s "Error"
  | _ => false
  end.

(** The invariant of a DiagnosisResult: fully populated, and either not an
    error with at most four precautions and four home remedies, or an error
    with both lists empty. *)
Definition diagnosis_invariant (v : json) : bool :=
  fully_populated v &&
  (if is_error v
   then list_length_le 0 (field "precautions" v) &&
        list_length_le 0 (field "home_remedies" v)
   else list_length_le 4 (field "precautions" v) &&
        list_length_le 4 (field "home_remedies" v)).

(** The language field is absent or empty. *)
Definition language_absent_or_empty (v : json) : Prop :=
  field "language" v = None \/ field "language" v = Some (JStr "").


(** The trace of [k] failed attempts in a row, the first of them call
    number [calls], slept on for [delay]. *)
Fixpoint retry_trace (k : nat) (calls : nat) (delay : Z) : list event :=
  match k with
  | O => []
  | S k' => Post calls :: Sleep delay :: retry_trace k' (S calls) (delay * 2)
  end.

(** What the outcome of a call is when it ends by a given statement. *)
Definition ends_by (x : exit) (o : outcome json) : Prop :=
  match x with
  | ReturnParsed => exists v, o = Returned v
  | ReturnParseError => o = Returned parse_error_result
  | ReturnConnectError => o = Returned connect_error_result
  | Propagates e => o = Raised e
  | Unfinished => o = OutOfFuel
  end.

(** ** One iteration of the loop, for the proofs *)

(** What one run of the loop body leads to: the call is over, or the loop
    goes round again with [result_text] as it then is. *)
Inductive step : Type :=
| Done (o : outcome json)
| Again (result_text : option json).

Definition on_exception (stdout_encodes : json -> bool)
    (e : exn) (result_text : option json) : step :=
  match except_clause e with
  | RetryHandler => Again result_text
  | DecodeHandler =>
      match result_text with
      | Some text =>
          if stdout_encodes text
          then Done (Returned parse_error_result)
          else Done (Raised UnicodeEncodeError)
      | None => Done (Raised UnboundLocalError)
      end
  | NoHandler => Done (Raised e)
  end.

Definition attempt_step (json_loads : string -> result json)
    (stdout_encodes : json -> bool)
    (post : json -> nat -> result response)
    (symptoms_input : json) (calls : nat) (result_text : option json) : step :=
  match fetch_text post symptoms_input calls with
  | Raise e => on_exception stdout_encodes e result_text
  | Value text =>
      match json_loads_value json_loads text with
      | Value parsed_json => Done (Returned parsed_json)
      | Raise e => on_exception stdout_encodes e (Some text)
      end
  end.

(** ** Sample endpoints and a sample decoder, for the examples *)

Definition dq : string := String (ascii_of_nat 34) EmptyString.

Definition quoted (s : string) : string := dq ++ s ++ dq.

(** The inner payload of the example of the specification, as text and as
    the object the text denotes. *)
Definition common_cold_text : string :=
  "{" ++ quoted "predicted_disease" ++ ": " ++ quoted "Common Cold" ++ ", "
      ++ quoted "description" ++ ": "
      ++ quoted "A mild viral infection of the nose and throat." ++ ", "
      ++ quoted "precautions" ++ ": [" ++ quoted "Rest" ++ ", "
      ++ quoted "Hydrate" ++ ", " ++ quoted "Avoid cold exposure" ++ "], "
      ++ quoted "home_remedies" ++ ": [" ++ quoted "Warm fluids" ++ ", "
      ++ quoted "Steam inhalation" ++ ", " ++ quoted "Honey and ginger tea"
      ++ "], "
      ++ quoted "language" ++ ": " ++ quoted "English" ++ "}".

Definition common_cold : json :=
  JDict [("predicted_disease", JStr "Common Cold");
         ("description",
          JStr "A mild viral infection of the nose and throat.");
         ("precautions",
          JList [JStr "Rest"; JStr "Hydrate"; JStr "Avoid cold exposure"]);
         ("home_remedies",
          JList [JStr "Warm fluids"; JStr "Steam inhalation";
                 JStr "Honey and ginger tea"]);
         ("language", JStr "English")].

(** A decoder for the examples.  It gives what [json.loads] gives on the
    texts the examples decode: the empty object, the empty array and the
    payload above; the only other texts the examples hand to it are
    [sorry_text] and [hindi_text], which are not JSON. *)
Definition sample_json_loads (s : string) : result json :=
  if String.eqb s "{}" then Value (JDict [])
  else if String.eqb s "[]" then Value (JList [])
  else if String.eqb s common_cold_text then Value common_cold
  else Raise JSONDecodeError.

Definition sorry_text : string := "Sorry, I cannot help with that.".

(** A greeting in Devanagari, as its UTF-8 bytes. *)
Definition hindi_text : string :=
  string_of_list_ascii
    (map ascii_of_nat
       [224; 164; 168; 224; 164; 174; 224; 164; 184; 224; 165; 141;
        224; 164; 164; 224; 165; 135]%nat).

(** Two standard outputs for the examples, given on strings, the only
    values the examples print: one that encodes every text, as UTF-8 does
    for the texts used here, and one that encodes ASCII only. *)
Definition utf8_stdout (_ : json) : bool := true.

Definition ascii_stdout (text : json) : bool :=
  match text with
  | JStr s =>
      forallb (fun c => Nat.ltb (nat_of_ascii c) 128) (list_ascii_of_string s)
  | _ => true
  end.

(** The envelope [{candidates: [{content: {parts: [{text: t}]}}]}]. *)
Definition envelope_of (text : json) : json :=
  JDict [("candidates",
          JList [JDict [("content",
                         JDict [("parts",
                                 JList [JDict [("text", text)]])])]])].

Definition ok_response (envelope : json) : response :=
  {| status_code := 200; response_json := Value envelope |}.

(** A server error page: status 503, a body that is not JSON. *)
Definition unavailable : response :=
  {| status_code := 503; response_json := Raise RequestsJSONDecodeError |}.

(** Endpoints: one that is never reached, one that always answers 503, one
    that always answers with the same envelope, and one that fails twice
    (no connection, then 503) before it answers. *)
Definition post_unreachable (_ : json) (_ : nat) : result response :=
  Raise ConnectionError.


Definition post_always (envelope : json) (_ : json) (_ : nat)
  : result response :=
  Value (ok_response envelope).

Definition post_third_time (envelope : json) (_ : json) (n : nat)
  : result response :=
  match n with
  | O => Raise ConnectionError
  | S O => Value unavailable
  | _ => Value (ok_response envelope)
  end.

(** ** The chat page: the script that calls [/predict]

    The script of [chat_page] is modelled by the effects it has, in order:
    the elements it appends to the chat, the request it sends, and its
    calls of [removeLoadingIndicator].  The values it handles are those
    [JSON.parse] builds, [undefined] being [None].  Console output is
    recorded without its text. *)

(** An element made by [document.createElement('div')]. *)
Record element : Type := mkElement {
  el_id : option string;
  el_classes : list string;
  el_innerHTML : string
}.

Inductive page_event : Type :=
| AppendChild (el : element)
| ScrollToBottom
| SetInputValue (value : string)
| Fetch (body : json)
| RemoveLoadingIndicator
| ConsoleError.

(** What [fetch] and then [response.json()] come to: the promise is
    rejected, or there is a response with a status and a body that is JSON
    or not. *)
Inductive fetch_result : Type :=
| FetchRejected
| FetchResponse (status : Z) (body : option json).

(** [response.ok] *)
Definition response_ok (status : Z) : bool :=
  (200 <=? status) && (status <=? 299).

(** [<name class="classes">] *)
Definition open_tag (name classes : string) : string :=
  "<" ++ name ++ " class=" ++ quoted classes ++ ">".

Definition nl : string := String (ascii_of_nat 10) EmptyString.

Definition obind {A B : Type} (m : option A) (k : A -> option B) : option B :=
  match m with
  | Some a => k a
  | None => None
  end.

Notation "x <~ m ;; k" := (obind m (fun x => k))
  (at level 100, m at next level, right associativity).

(** [data.name], for the four names the script reads, none of which a
    prototype defines: an own property of an object, [undefined] on any
    other value, a [TypeError] (here [None]) on [null]. *)
Definition get_property (data : json) (name : string) : option (option json) :=
  match data with
  | JNull => None
  | JDict d => Some (lookup name d)
  | _ => Some None
  end.

(** [x !== 'Error'] *)
Definition strict_ne_Error (x : option json) : bool :=
  match x with
  | Some (JStr s) => negb (String.eqb s "Error")
  | _ => true
  end.

Definition scrollToBottom : list page_event := [ScrollToBottom].

Definition removeLoadingIndicator : list page_event :=
  [RemoveLoadingIndicator].

Definition user_element (message : string) : element :=
  {| el_id := None;
     el_classes := ["flex"; "justify-end"];
     el_innerHTML :=
       open_tag "div"
         "bg-blue-600 text-white p-4 rounded-xl shadow-sm message-bubble"
       ++ "<p>" ++ message ++ "</p></div>" |}.

Definition addUserMessage (message : string) : list page_event :=
  AppendChild (user_element message) :: scrollToBottom.

Definition avatar : string :=
  open_tag "div"
    "w-8 h-8 rounded-full bg-blue-500 flex items-center justify-center text-white font-bold text-sm"
  ++ "AI</div>".

Definition loading_element : element :=
  {| el_id := Some "loading-indicator";
     el_classes := ["flex"; "items-start"; "space-x-2"];
     el_innerHTML :=
       nl ++ "                    " ++ avatar
       ++ nl ++ "                    "
       ++ open_tag "div"
            "bg-[#1e3247] text-gray-200 p-4 rounded-xl shadow-sm message-bubble animate-pulse"
       ++ nl ++ "                        <p>Dr. Uncle is thinking...</p>"
       ++ nl ++ "                    </div>"
       ++ nl ++ "                " |}.

Definition addLoadingIndicator : list page_event :=
  AppendChild loading_element :: scrollToBottom.

Definition ai_element (responseHtml : string) : element :=
  {| el_id := None;
     el_classes := ["flex"; "items-start"; "space-x-2"];
     el_innerHTML := responseHtml |}.

(** The object [sendMessage] shows when the request fails. *)
Definition fallback : json :=
  JDict [("predicted_disease", JStr "Error");
         ("description",
          JStr "Could not connect to the service. Please try again.");
         ("precautions", JList []);
         ("home_remedies", JList [])].

Section Page.

(** [String.prototype.trim] *)
Variable trim : string -> string.

(** The conversion to a string of a number, an array or an object, as a
    template literal does it; [None] when it throws a [TypeError], as it
    does for an object that has a [toString] entry of its own, which is
    not callable. *)
Variable to_string : json -> option string.

(** [${x}] in a template literal; [None] when the conversion throws. *)
Definition template (x : option json) : option string :=
  match x with
  | None => Some "undefined"
  | Some JNull => Some "null"
  | Some (JBool true) => Some "true"
  | Some (JBool false) => Some "false"
  | Some (JStr s) => Some s
  | Some v => to_string v
  end.

(** [l.map(p => `<li>${p}</li>`).join('')] on the elements of an array. *)
Fixpoint items (l : list json) : option string :=
  match l with
  | [] => Some ""
  | p :: l' =>
      text <~ template (Some p) ;;
      rest <~ items l' ;;
      Some ("<li>" ++ text ++ "</li>" ++ rest)%string
  end.

(** [x.map(p => `<li>${p}</li>`).join('')]: only an array has [map]; on
    anything else the call is a [TypeError]. *)
Definition list_items (x : option json) : option string :=
  match x with
  | Some (JList l) => items l
  | _ => None
  end.

(** The template literal of [addAIMessage]; [None] when its evaluation
    throws. *)
Definition responseHtml (data : json) : option string :=
  disease <~ get_property data "predicted_disease" ;;
  inner <~
    (if strict_ne_Error disease then
       disease <~ get_property data "predicted_disease" ;;
       disease_text <~ template disease ;;
       description <~ get_property data "description" ;;
       description_text <~ template description ;;
       precautions <~ get_property data "precautions" ;;
       precaution_items <~ list_items precautions ;;
       home_remedies <~ get_property data "home_remedies" ;;
       remedy_items <~ list_items home_remedies ;;
       Some (open_tag "h3" "font-bold text-lg mb-2 text-blue-400"
             ++ disease_text ++ "</h3>"
             ++ open_tag "p" "mb-4" ++ description_text ++ "</p>"
             ++ open_tag "h4" "font-semibold mb-2" ++ "Precautions:</h4>"
             ++ open_tag "ul"
                  "list-disc list-inside space-y-1 text-sm text-gray-300"
             ++ precaution_items ++ "</ul>"
             ++ open_tag "h4" "font-semibold mt-4 mb-2"
             ++ "Home Remedies:</h4>"
             ++ open_tag "ul"
                  "list-disc list-inside space-y-1 text-sm text-gray-300"
             ++ remedy_items ++ "</ul>"
             ++ open_tag "div"
                  "mt-4 pt-4 border-t border-gray-600 text-xs text-gray-400 italic"
             ++ "Disclaimer: This is for informational purposes only and not a substitute for professional medical advice. Always consult with a qualified healthcare professional.</div>")%string
     else
       description <~ get_property data "description" ;;
       description_text <~ template description ;;
       Some (open_tag "p" "text-red-400 font-semibold"
             ++ description_text ++ "</p>")%string) ;;
  Some (avatar
        ++ open_tag "div"
             "bg-[#1e3247] text-gray-200 p-4 rounded-xl shadow-sm message-bubble"
        ++ inner ++ "</div>")%string.

(** [addAIMessage(data)]: the element is appended once its HTML has been
    built; when that throws, nothing has been appended. *)
Definition addAIMessage (data : json) : option (list page_event) :=
  html <~ responseHtml data ;;
  Some (AppendChild (ai_element html) :: scrollToBottom).

(** The [try] block of [sendMessage], given what the request came to: the
    effects it has, and whether it throws. *)
Definition try_block (r : fetch_result) : list page_event * bool :=
  match r with
  | FetchRejected => ([], true)
  | FetchResponse status body =>
      if response_ok status then
        match body with
        | None => ([], true)
        | Some result =>
            match addAIMessage result with
            | Some evs => (removeLoadingIndicator ++ evs, false)
            | None => (removeLoadingIndicator, true)
            end
        end
      else ([], true)
  end.

Definition catch_block : list page_event :=
  ConsoleError :: removeLoadingIndicator ++
  match addAIMessage fallback with
  | Some evs => evs
  | None => []
  end.

(** [sendMessage()], for the text [value] of the input field and a server
    that answers a request body with [server body]. *)
Definition sendMessage (server : json -> fetch_result) (value : string)
  : list page_event :=
  let symptoms := trim value in
  if String.eqb symptoms "" then []
  else
    let body := JDict [("symptoms", JStr symptoms)] in
    addUserMessage symptoms ++ [SetInputValue ""] ++ addLoadingIndicator ++
    Fetch body ::
    (let '(evs, threw) := try_block (server body) in
     evs ++ if threw then catch_block else []).

End Page.

(** The requests sent and the elements appended, in order. *)
Fixpoint requests (evs : list page_event) : list json :=
  match evs with
  | [] => []
  | Fetch body :: evs' => body :: requests evs'
  | _ :: evs' => requests evs'
  end.

Fixpoint appended (evs : list page_event) : list element :=
  match evs with
  | [] => []
  | AppendChild el :: evs' => el :: appended evs'
  | _ :: evs' => appended evs'
  end.

(** The HTML the script shows for what a request came to: that of the
    result when there is one and it can be shown, that of [fallback]
    otherwise. *)
Definition shown_html (to_string : json -> option string)
    (r : fetch_result) : option string :=
  match r with
  | FetchResponse status (Some result) =>
      if response_ok status then
        match responseHtml to_string result with
        | Some html => Some html
        | None => responseHtml to_string fallback
        end
      else responseHtml to_string fallback
  | _ => responseHtml to_string fallback
  end.

Definition is_list (x : option json) : bool :=
  match x with
  | Some (JList _) => true
  | _ => false
  end.

(** For the examples: a [trim] that is right on texts without white space
    at their ends, and a conversion that is right on objects and on the
    empty array; the examples convert strings only, which do not reach
    it. *)
Definition sample_trim (s : string) : string := s.

Definition sample_to_string (v : json) : option string :=
  match v with
  | JDict d =>
      if is_some (lookup "toString" d) then None else Some "[object Object]"
  | JList [] => Some ""
  | _ => None
  end.

(** A result as the page expects it: [predicted_disease] and [description]
    are strings and, unless the former is "Error", [precautions] and
    [home_remedies] are arrays of strings. *)
Definition is_string (x : option json) : bool :=
  match x with
  | Some (JStr _) => true
  | _ => false
  end.

Definition is_list_of_strings (x : option json) : bool :=
  match x with
  | Some (JList l) => forallb (fun p => is_string (Some p)) l
  | _ => false
  end.

Definition displayable (data : json) : bool :=
  is_string (field "predicted_disease" data) &&
  is_string (field "description" data) &&
  (negb (strict_ne_Error (field "predicted_disease" data)) ||
   is_list_of_strings (field "precautions" data) &&
   is_list_of_strings (field "home_remedies" data)).

(** The HTML [addAIMessage] builds for a result whose [predicted_disease]
    is "Error": the description alone, in the red paragraph. *)
Definition error_html (description : string) : string :=
  avatar
  ++ open_tag "div"
       "bg-[#1e3247] text-gray-200 p-4 rounded-xl shadow-sm message-bubble"
  ++ (open_tag "p" "text-red-400 font-semibold" ++ description ++ "</p>")
  ++ "</div>".

(** ** The loop, one iteration at a time *)

Lemma while_loop_step json_loads stdout_encodes post fuel s retries delay rt
    calls :
  while_loop json_loads stdout_encodes post (S fuel) s retries delay rt calls
  =
  if retries <? max_retries then
    match attempt_step json_loads stdout_encodes post s calls rt with
    | Done o => (o, [Post calls])
    | Again rt' =>
        let '(o, tr) :=
          while_loop json_loads stdout_encodes post fuel s (retries + 1)
                     (delay * 2) rt' (S calls) in
        (o, Post calls :: Sleep delay :: tr)
    end
  else (Returned connect_error_result, []).
Proof.
  cbn [while_loop]. unfold attempt_step, on_exception.
  destruct (retries <? max_retries); [ | reflexivity ].
  destruct (fetch_text post s calls) as [text | e].
  - destruct (json_loads_value json_loads text) as [v | e]; [ reflexivity | ].
    destruct (except_clause e); try reflexivity.
    + destruct (while_loop _ _ _ _ _ _ _ _ _); reflexivity.
    + destruct (stdout_encodes text); reflexivity.
  - destruct (except_clause e); try reflexivity.
    + destruct (while_loop _ _ _ _ _ _ _ _ _); reflexivity.
    + destruct rt as [text | ]; [ | reflexivity ].
      destruct (stdout_encodes text); reflexivity.
Qed.

(** A failed transport sends the loop round again, and leaves
    [result_text] as it was. *)
Lemma transport_fails_again json_loads stdout_encodes post s calls rt :
  transport_fails (post s calls) = true ->
  attempt_step json_loads stdout_encodes post s calls rt = Again rt.
Proof.
  unfold transport_fails, attempt_step, fetch_text, raise_for_status, bind.
  destruct (post s calls) as [r | e]; intros H.
  - rewrite H. reflexivity.
  - unfold on_exception, except_clause. rewrite H. reflexivity.
Qed.

(** [raise_for_status] lets through every status outside 400..599, the
    informational and redirection statuses included. *)
Lemma raise_for_status_passes r :
  raise_for_status r = Value tt <->
  (status_code r < 400 \/ 600 <= status_code r).
Proof.
  unfold raise_for_status.
  destruct (Z.leb_spec 400 (status_code r)) as [Hlo | Hlo];
    destruct (Z.ltb_spec (status_code r) 600) as [Hhi | Hhi]; cbn [andb];
    split; intros H; try reflexivity; try discriminate; lia.
Qed.

(** A response that passes [raise_for_status] and carries a text. *)
Lemma fetch_text_ok post s calls r text :
  post s calls = Value r ->
  raise_for_status r = Value tt ->
  result_text_of r = Value text ->
  fetch_text post s calls = Value text.
Proof.
  intros Hp Hs Ht. unfold fetch_text, bind. rewrite Hp, Hs. exact Ht.
Qed.

Lemma while_loop_exhausted json_loads stdout_encodes post fuel s retries
    delay rt calls :
  max_retries <= retries ->
  while_loop json_loads stdout_encodes post (S fuel) s retries delay rt calls
  = (Returned connect_error_result, []).
Proof.
  intros H. rewrite while_loop_step.
  destruct (Z.ltb_spec retries max_retries); [ lia | reflexivity ].
Qed.

Lemma while_loop_again json_loads stdout_encodes post fuel s retries delay
    rt rt' calls :
  retries < max_retries ->
  attempt_step json_loads stdout_encodes post s calls rt = Again rt' ->
  while_loop json_loads stdout_encodes post (S fuel) s retries delay rt calls
  =
  (fst (while_loop json_loads stdout_encodes post fuel s (retries + 1)
                   (delay * 2) rt' (S calls)),
   Post calls :: Sleep delay ::
     snd (while_loop json_loads stdout_encodes post fuel s (retries + 1)
                     (delay * 2) rt' (S calls))).
Proof.
  intros H Ha. rewrite while_loop_step, Ha.
  destruct (Z.ltb_spec retries max_retries); [ | lia ].
  destruct (while_loop _ _ _ _ _ _ _ _ _); reflexivity.
Qed.

Lemma while_loop_done json_loads stdout_encodes post fuel s retries delay rt
    calls o :
  retries < max_retries ->
  attempt_step json_loads stdout_encodes post s calls rt = Done o ->
  while_loop json_loads stdout_encodes post (S fuel) s retries delay rt calls
  = (o, [Post calls]).
Proof.
  intros H Ha. rewrite while_loop_step, Ha.
  destruct (Z.ltb_spec retries max_retries); [ reflexivity | lia ].
Qed.

(** ** Termination: the fuel of [predict_disease_with_gemini] is enough *)

Lemma on_exception_fuel stdout_encodes e rt :
  on_exception stdout_encodes e rt <> Done OutOfFuel.
Proof.
  unfold on_exception.
  destruct (except_clause e);
    [ | destruct rt as [text | ]; [ destruct (stdout_encodes text) | ] | ];
    discriminate.
Qed.

Lemma attempt_step_fuel json_loads stdout_encodes post s calls rt :
  attempt_step json_loads stdout_encodes post s calls rt <> Done OutOfFuel.
Proof.
  unfold attempt_step.
  destruct (fetch_text post s calls) as [text | e];
    [ destruct (json_loads_value json_loads text) | ];
    try discriminate; apply on_exception_fuel.
Qed.

(** Every iteration that goes round again adds one to [retries], so
    [max_retries - retries] iterations and one last test of the condition
    end the loop. *)
Lemma while_loop_total json_loads stdout_encodes post fuel :
  forall s retries delay rt calls,
    (Z.to_nat (max_retries - retries) < fuel)%nat ->
    fst (while_loop json_loads stdout_encodes post fuel s retries delay rt
                    calls)
    <> OutOfFuel.
Proof.
  induction fuel as [ | fuel IH]; intros s retries delay rt calls Hfuel.
  - lia.
  - destruct (Z.ltb_spec retries max_retries) as [Hlt | Hge].
    + destruct (attempt_step json_loads stdout_encodes post s calls rt)
        as [o | rt'] eqn:Ha.
      * rewrite (while_loop_done _ _ _ _ _ _ _ _ _ o Hlt Ha). cbn [fst].
        intros ->. exact (attempt_step_fuel _ _ _ _ _ _ Ha).
      * rewrite (while_loop_again _ _ _ _ _ _ _ _ rt' _ Hlt Ha). cbn [fst].
        apply IH. lia.
    + rewrite while_loop_exhausted by exact Hge. discriminate.
Qed.

(** Fuel beyond what a run needs does not change the run. *)
Lemma while_loop_more_fuel json_loads stdout_encodes post fuel :
  forall s retries delay rt calls,
    fst (while_loop json_loads stdout_encodes post fuel s retries delay rt
                    calls)
    <> OutOfFuel ->
    while_loop json_loads stdout_encodes post (S fuel) s retries delay rt
               calls =
    while_loop json_loads stdout_encodes post fuel s retries delay rt calls.
Proof.
  induction fuel as [ | fuel IH]; intros s retries delay rt calls Hne.
  - exfalso. apply Hne. reflexivity.
  - rewrite (while_loop_step _ _ _ (S fuel)).
    rewrite (while_loop_step _ _ _ fuel) in Hne |- *.
    destruct (retries <? max_retries); [ | reflexivity ].
    destruct (attempt_step json_loads stdout_encodes post s calls rt)
      as [o | rt']; [ reflexivity | ].
    rewrite IH; [ reflexivity | ].
    intros Heq. apply Hne.
    destruct (while_loop json_loads stdout_encodes post fuel s (retries + 1)
                         (delay * 2) rt' (S calls)) as [o tr].
    cbn [fst] in *. exact Heq.
Qed.

Lemma predict_disease_with_gemini_total json_loads stdout_encodes post s :
  fst (predict_disease_with_gemini json_loads stdout_encodes post s)
  <> OutOfFuel.
Proof.
  unfold predict_disease_with_gemini. apply while_loop_total.
  unfold loop_fuel, max_retries. simpl. lia.
Qed.

Lemma predict_disease_with_gemini_fuel json_loads stdout_encodes post s
    fuel :
  (loop_fuel <= fuel)%nat ->
  while_loop json_loads stdout_encodes post fuel s 0 1 None 0 =
  predict_disease_with_gemini json_loads stdout_encodes post s.
Proof.
  unfold predict_disease_with_gemini.
  induction 1 as [ | fuel Hle IH]; [ reflexivity | ].
  rewrite while_loop_more_fuel; [ exact IH | ].
  rewrite IH. apply predict_disease_with_gemini_total.
Qed.

(** ** The statement that ends a call *)

(** [while_loop_exit] names the statement by which [while_loop] ends. *)
Lemma while_loop_exit_spec json_loads stdout_encodes post fuel :
  forall s retries delay rt calls,
    ends_by
      (while_loop_exit json_loads stdout_encodes post fuel s retries delay rt
                       calls)
      (fst (while_loop json_loads stdout_encodes post fuel s retries delay rt
                       calls)).
Proof.
  induction fuel as [ | fuel IH]; intros s retries delay rt calls.
  - reflexivity.
  - cbn [while_loop while_loop_exit].
    destruct (retries <? max_retries); [ | reflexivity ].
    assert (Hround : forall rt',
      ends_by
        (while_loop_exit json_loads stdout_encodes post fuel s (retries + 1)
                         (delay * 2) rt' (S calls))
        (fst (let '(o, tr) :=
                (let '(o, tr) :=
                   while_loop json_loads stdout_encodes post fuel s
                              (retries + 1) (delay * 2) rt' (S calls) in
                 (o, Sleep delay :: tr)) in
              (o, Post calls :: tr)))).
    { intros rt'. specialize (IH s (retries + 1) (delay * 2) rt' (S calls)).
      destruct (while_loop json_loads stdout_encodes post fuel s
                           (retries + 1) (delay * 2) rt' (S calls))
        as [o tr].
      exact IH. }
    destruct (fetch_text post s calls) as [text | e].
    + destruct (json_loads_value json_loads text) as [v | e].
      * exists v. reflexivity.
      * destruct (except_clause e); [ apply Hround | | reflexivity ].
        destruct (stdout_encodes text); reflexivity.
    + destruct (except_clause e); [ apply Hround | | reflexivity ].
      destruct rt as [text | ]; [ | reflexivity ].
      destruct (stdout_encodes text); reflexivity.
Qed.

Lemma exit_of_spec json_loads stdout_encodes post s :
  ends_by (exit_of json_loads stdout_encodes post s)
          (fst (predict_disease_with_gemini json_loads stdout_encodes post s)).
Proof.
  apply while_loop_exit_spec.
Qed.

(** ** Runs that begin with failed attempts *)

Lemma while_loop_failures json_loads stdout_encodes post s :
  forall k fuel retries delay rt calls,
    (forall j, (j < k)%nat ->
               transport_fails (post s (calls + j)%nat) = true) ->
    retries + Z.of_nat k <= max_retries ->
    while_loop json_loads stdout_encodes post (k + fuel) s retries delay rt
               calls =
    (fst (while_loop json_loads stdout_encodes post fuel s
                     (retries + Z.of_nat k) (delay * 2 ^ Z.of_nat k) rt
                     (calls + k)%nat),
     retry_trace k calls delay ++
     snd (while_loop json_loads stdout_encodes post fuel s
                     (retries + Z.of_nat k) (delay * 2 ^ Z.of_nat k) rt
                     (calls + k)%nat)).
Proof.
  induction k as [ | k IH]; intros fuel retries delay rt calls Hfail Hle.
  - cbn [retry_trace Nat.add app].
    replace (retries + Z.of_nat 0) with retries by lia.
    replace (delay * 2 ^ Z.of_nat 0) with delay by (simpl; lia).
    rewrite Nat.add_0_r.
    destruct (while_loop _ _ _ _ _ _ _ _ _); reflexivity.
  - cbn [Nat.add retry_trace].
    rewrite (while_loop_again _ _ _ _ _ _ _ rt rt); [ | lia | ].
    + rewrite IH.
      * replace (retries + 1 + Z.of_nat k) with (retries + Z.of_nat (S k))
          by lia.
        replace (delay * 2 * 2 ^ Z.of_nat k) with (delay * 2 ^ Z.of_nat (S k))
          by (rewrite Nat2Z.inj_succ, Z.pow_succ_r by lia; lia).
        replace (S calls + k)%nat with (calls + S k)%nat by lia.
        reflexivity.
      * intros j Hj.
        replace (S calls + j)%nat with (calls + S j)%nat by lia.
        apply Hfail. lia.
      * lia.
    + apply transport_fails_again.
      rewrite <- (Nat.add_0_r calls). apply Hfail. lia.
Qed.

(** After [k < max_retries] failed attempts, an attempt that ends the call
    ends it with the backoff trace behind it. *)
Lemma run_after_failures json_loads stdout_encodes post s k o :
  (k < 3)%nat ->
  (forall j, (j < k)%nat -> transport_fails (post s j) = true) ->
  attempt_step json_loads stdout_encodes post s k None = Done o ->
  predict_disease_with_gemini json_loads stdout_encodes post s =
  (o, retry_trace k 0 1 ++ [Post k]).
Proof.
  intros Hk Hfail Hdone. unfold predict_disease_with_gemini.
  change loop_fuel with 4%nat.
  replace 4%nat with (k + S (3 - k))%nat by lia.
  rewrite while_loop_failures; [ | exact Hfail | unfold max_retries; lia ].
  cbn [Nat.add]. rewrite (while_loop_done _ _ _ _ _ _ _ _ _ o).
  - reflexivity.
  - unfold max_retries. lia.
  - exact Hdone.
Qed.


(** What an answer that passes [raise_for_status] leads to, by what the
    decoder makes of its text and by what the standard output makes of the
    message. *)
Lemma attempt_step_decoded json_loads stdout_encodes post s calls rt r text
    v :
  post s calls = Value r ->
  raise_for_status r = Value tt ->
  result_text_of r = Value (JStr text) ->
  json_loads text = Value v ->
  attempt_step json_loads stdout_encodes post s calls rt = Done (Returned v).
Proof.
  intros Hp Hs Ht Hl. unfold attempt_step.
  rewrite (fetch_text_ok _ _ _ _ _ Hp Hs Ht). cbn [json_loads_value].
  rewrite Hl. reflexivity.
Qed.

Lemma attempt_step_undecodable json_loads stdout_encodes post s calls rt r
    text :
  post s calls = Value r ->
  raise_for_status r = Value tt ->
  result_text_of r = Value (JStr text) ->
  json_loads text = Raise JSONDecodeError ->
  attempt_step json_loads stdout_encodes post s calls rt =
  Done (if stdout_encodes (JStr text)
        then Returned parse_error_result
        else Raised UnicodeEncodeError).
Proof.
  intros Hp Hs Ht Hl. unfold attempt_step.
  rewrite (fetch_text_ok _ _ _ _ _ Hp Hs Ht). cbn [json_loads_value].
  rewrite Hl. unfold on_exception. cbn [except_clause is_RequestException
    is_JSONDecodeError].
  destruct (stdout_encodes (JStr text)); reflexivity.
Qed.


(** Every [get] of the traversal falls back on its default when the
    envelope lacks a field, down to the text of the empty object. *)
Lemma lacks_field_result_text r envelope :
  response_json r = Value envelope ->
  lacks_field envelope ->
  result_text_of r = Value (JStr "{}").
Proof.
  intros Hj Hl. unfold result_text_of, bind. rewrite Hj.
  destruct Hl as [d H1 | d dc cs H1 H2 | d dc cs dn H1 H2 H3
                  | d dc cs dn dp ps H1 H2 H3 H4];
    cbn [get]; rewrite H1; cbn [item0 get lookup]; try reflexivity;
    rewrite H2; cbn [item0 get lookup]; try reflexivity;
    rewrite H3; cbn [item0 get lookup]; try reflexivity;
    rewrite H4; reflexivity.
Qed.
(** * The claims of the specification *)

(** ** C1: no exception crosses the boundary of the client *)

(** C1.  The specification states that [predict_disease_with_gemini] never
    raises.  The code does raise: when an answer passes [raise_for_status]
    and its envelope has a [candidates] entry that is the empty list, the
    subscript [[0]] raises [IndexError], which neither [except] clause
    catches; the call ends after one attempt with that exception. *)
Theorem C1_empty_candidates_raises
    (json_loads : string -> result json)
    (stdout_encodes : json -> bool)
    (post : json -> nat -> result response)
    (s : string) (r : response) (d : list (string * json)) :
  post (JStr s) 0%nat = Value r ->
  raise_for_status r = Value tt ->
  response_json r = Value (JDict d) ->
  lookup "candidates" d = Some (JList []) ->
  predict_disease_with_gemini json_loads stdout_encodes post (JStr s) =
  (Raised IndexError, [Post 0]).
Proof.
  intros Hp Hs Hj Hc.
  rewrite (run_after_failures _ _ _ _ 0%nat (Raised IndexError));
    [ reflexivity | lia | intros j Hj0; lia | ].
  unfold attempt_step, fetch_text, result_text_of, bind.
  rewrite Hp, Hs, Hj. cbn [get]. rewrite Hc. reflexivity.
Qed.

Lemma C1_empty_candidates_raises_witness :
  predict_disease_with_gemini sample_json_loads utf8_stdout
    (post_always (JDict [("candidates", JList [])])) (JStr "fever") =
  (Raised IndexError, [Post 0]).
Proof.
  apply (C1_empty_candidates_raises sample_json_loads utf8_stdout
           (post_always (JDict [("candidates", JList [])])) "fever"
           (ok_response (JDict [("candidates", JList [])]))
           [("candidates", JList [])]); reflexivity.
Defined.

(** ** C2: an envelope that lacks a field *)

(** C2.  The specification states that an envelope lacking [candidates],
    [content], [parts] or [text] ends in the malformed-response error
    dictionary.  In the code every [get] falls back on its default, the
    last of them the text of the empty object, which the decoder accepts:
    the call returns the empty dictionary, after one attempt and without an
    exception, and not the error dictionary. *)
Theorem C2_lacking_field_returns_empty_dict
    (json_loads : string -> result json)
    (stdout_encodes : json -> bool)
    (post : json -> nat -> result response)
    (s : string) (r : response) (envelope : json) :
  json_loads "{}" = Value (JDict []) ->
  post (JStr s) 0%nat = Value r ->
  raise_for_status r = Value tt ->
  response_json r = Value envelope ->
  lacks_field envelope ->
  predict_disease_with_gemini json_loads stdout_encodes post (JStr s) =
  (Returned (JDict []), [Post 0]) /\
  JDict [] <> parse_error_result /\
  field "description" (JDict []) = None.
Proof.
  intros Hl Hp Hs Hj Hlack. split; [ | split; [ discriminate | reflexivity ] ].
  rewrite (run_after_failures _ _ _ _ 0%nat (Returned (JDict [])));
    [ reflexivity | lia | intros j Hj0; lia | ].
  apply (attempt_step_decoded _ _ _ _ _ _ r "{}"); try assumption.
  exact (lacks_field_result_text _ _ Hj Hlack).
Qed.

Lemma C2_lacking_field_returns_empty_dict_witness :
  predict_disease_with_gemini sample_json_loads utf8_stdout
    (post_always (JDict [])) (JStr "fever") =
  (Returned (JDict []), [Post 0]) /\
  JDict [] <> parse_error_result /\
  field "description" (JDict []) = None.
Proof.
  apply (C2_lacking_field_returns_empty_dict sample_json_loads utf8_stdout
           (post_always (JDict [])) "fever" (ok_response (JDict []))
           (JDict [])); try reflexivity.
  apply no_candidates. reflexivity.
Defined.

(** ** C3: three attempts, then the connection error *)



(** ** C4: an answer whose text is not JSON *)

(** When the decoder rejects the text with [JSONDecodeError] and the
    standard output can encode the message of the second [except] clause,
    the call makes one attempt, sleeps not at all and returns the parse
    error dictionary. *)
Lemma undecodable_text_returns_parse_error
    (json_loads : string -> result json)
    (stdout_encodes : json -> bool)
    (post : json -> nat -> result response)
    (s : string) (r : response) (text : string) :
  post (JStr s) 0%nat = Value r ->
  raise_for_status r = Value tt ->
  result_text_of r = Value (JStr text) ->
  json_loads text = Raise JSONDecodeError ->
  stdout_encodes (JStr text) = true ->
  predict_disease_with_gemini json_loads stdout_encodes post (JStr s) =
  (Returned parse_error_result, [Post 0]).
Proof.
  intros Hp Hs Ht Hl Henc.
  rewrite (run_after_failures _ _ _ _ 0%nat (Returned parse_error_result));
    [ reflexivity | lia | intros j Hj0; lia | ].
  rewrite (attempt_step_undecodable _ _ _ _ _ _ _ _ Hp Hs Ht Hl), Henc.
  reflexivity.
Qed.

(** A text on which [json.loads] fails with an exception of another class,
    as it does with [RecursionError] on a text nested too deep, is not
    turned into the error dictionary either: the exception leaves the
    call. *)
Lemma undecodable_text_other_exception
    (json_loads : string -> result json)
    (stdout_encodes : json -> bool)
    (post : json -> nat -> result response)
    (s : string) (r : response) (text : string) (e : exn) :
  post (JStr s) 0%nat = Value r ->
  raise_for_status r = Value tt ->
  result_text_of r = Value (JStr text) ->
  json_loads text = Raise e ->
  is_RequestException e = false ->
  is_JSONDecodeError e = false ->
  predict_disease_with_gemini json_loads stdout_encodes post (JStr s) =
  (Raised e, [Post 0]).
Proof.
  intros Hp Hs Ht Hl Hr Hd.
  rewrite (run_after_failures _ _ _ _ 0%nat (Raised e));
    [ reflexivity | lia | intros j Hj0; lia | ].
  unfold attempt_step. rewrite (fetch_text_ok _ _ _ _ _ Hp Hs Ht).
  cbn [json_loads_value]. rewrite Hl.
  unfold on_exception, except_clause. rewrite Hr, Hd. reflexivity.
Qed.

(** C4.  The specification states that an answer whose text is not JSON
    ends, after one attempt, in the parse error dictionary.  The second
    [except] clause prints the text before it returns: when the standard
    output cannot encode the text, [print] raises [UnicodeEncodeError]
    inside the clause, and the call raises it after one attempt instead of
    returning the error dictionary. *)
Theorem C4_undecodable_text_print_raises
    (json_loads : string -> result json)
    (stdout_encodes : json -> bool)
    (post : json -> nat -> result response)
    (s : string) (r : response) (text : string) :
  post (JStr s) 0%nat = Value r ->
  raise_for_status r = Value tt ->
  result_text_of r = Value (JStr text) ->
  json_loads text = Raise JSONDecodeError ->
  stdout_encodes (JStr text) = false ->
  predict_disease_with_gemini json_loads stdout_encodes post (JStr s) =
  (Raised UnicodeEncodeError, [Post 0]).
Proof.
  intros Hp Hs Ht Hl Henc.
  rewrite (run_after_failures _ _ _ _ 0%nat (Raised UnicodeEncodeError));
    [ reflexivity | lia | intros j Hj0; lia | ].
  rewrite (attempt_step_undecodable _ _ _ _ _ _ _ _ Hp Hs Ht Hl), Henc.
  reflexivity.
Qed.

Lemma C4_undecodable_text_print_raises_witness :
  predict_disease_with_gemini sample_json_loads ascii_stdout
    (post_always (envelope_of (JStr hindi_text))) (JStr "fever") =
  (Raised UnicodeEncodeError, [Post 0]).
Proof.
  apply (C4_undecodable_text_print_raises sample_json_loads ascii_stdout
           (post_always (envelope_of (JStr hindi_text))) "fever"
           (ok_response (envelope_of (JStr hindi_text))) hindi_text);
    reflexivity.
Defined.

(** ** C5: two failures, then an answer *)



(** ** C6: a well-formed answer is passed through *)



(** ** C7: the shape of the returned value *)

(** C7.  The specification states that the returned value always has the
    five fields, with at most four precautions and home remedies or, for an
    error, none.  The code returns what the text of the answer decodes to
    without looking at it: when that value does not satisfy the invariant
    of a DiagnosisResult (a list, an object without the fields, more than
    four entries), the call returns it all the same. *)
Theorem C7_decoded_value_returned_unchecked
    (json_loads : string -> result json)
    (stdout_encodes : json -> bool)
    (post : json -> nat -> result response)
    (s : string) (r : response) (text : string) (v : json) :
  s <> "" ->
  post (JStr s) 0%nat = Value r ->
  raise_for_status r = Value tt ->
  result_text_of r = Value (JStr text) ->
  json_loads text = Value v ->
  diagnosis_invariant v = false ->
  exists v' tr,
    predict_disease_with_gemini json_loads stdout_encodes post (JStr s) =
    (Returned v', tr) /\
    v' = v /\
    diagnosis_invariant v' = false.
Proof.
  intros _ Hp Hs Ht Hl Hinv. exists v, [Post 0]. split; [ | split ].
  - rewrite (run_after_failures _ _ _ _ 0%nat (Returned v));
      [ reflexivity | lia | intros j Hj0; lia | ].
    exact (attempt_step_decoded _ _ _ _ _ _ _ _ _ Hp Hs Ht Hl).
  - reflexivity.
  - exact Hinv.
Qed.

Lemma C7_decoded_value_returned_unchecked_witness :
  exists v' tr,
    predict_disease_with_gemini sample_json_loads utf8_stdout
      (post_always (envelope_of (JStr "[]"))) (JStr "fever") =
    (Returned v', tr) /\
    v' = JList [] /\
    diagnosis_invariant v' = false.
Proof.
  apply (C7_decoded_value_returned_unchecked sample_json_loads utf8_stdout
           (post_always (envelope_of (JStr "[]"))) "fever"
           (ok_response (envelope_of (JStr "[]"))) "[]" (JList []));
    try reflexivity.
  discriminate.
Defined.

(** ** C8: the language of an error dictionary *)

(** C8, as stated, fails: on both error paths the error dictionary has a
    [language] field, and the field is "English". *)
Lemma C8_counterexample :
  fst (predict_disease_with_gemini sample_json_loads utf8_stdout
         post_unreachable (JStr "fever")) = Returned connect_error_result /\
  ~ language_absent_or_empty connect_error_result /\
  fst (predict_disease_with_gemini sample_json_loads utf8_stdout
         (post_always (envelope_of (JStr sorry_text))) (JStr "fever"))
  = Returned parse_error_result /\
  ~ language_absent_or_empty parse_error_result.
Proof.
  repeat split; try reflexivity; intros [H | H]; discriminate H.
Qed.

(** C8, amended.  On every error path, that is, whenever the call ends by
    the [return] of the second [except] clause or by the [return] after
    the loop, whatever led there, it returns an error dictionary whose
    [language] field is "English". *)
Theorem C8_error_paths_language_English
    (json_loads : string -> result json)
    (stdout_encodes : json -> bool)
    (post : json -> nat -> result response) (s : string) :
  exit_of json_loads stdout_encodes post (JStr s) = ReturnParseError \/
  exit_of json_loads stdout_encodes post (JStr s) = ReturnConnectError ->
  exists v tr,
    predict_disease_with_gemini json_loads stdout_encodes post (JStr s) =
    (Returned v, tr) /\
    is_error v = true /\
    field "language" v = Some (JStr "English").
Proof.
  intros Hexit.
  pose proof (exit_of_spec json_loads stdout_encodes post (JStr s)) as Hspec.
  destruct (predict_disease_with_gemini json_loads stdout_encodes post
              (JStr s)) as [o tr].
  cbn [fst] in Hspec.
  destruct Hexit as [Hexit | Hexit]; rewrite Hexit in Hspec;
    cbn [ends_by] in Hspec; subst o.
  - exists parse_error_result, tr. repeat split.
  - exists connect_error_result, tr. repeat split.
Qed.

Lemma C8_error_paths_language_English_witness :
  (exists v tr,
     predict_disease_with_gemini sample_json_loads utf8_stdout
       (post_always (envelope_of (JStr sorry_text))) (JStr "fever") =
     (Returned v, tr) /\
     is_error v = true /\
     field "language" v = Some (JStr "English")) /\
  (exists v tr,
     predict_disease_with_gemini sample_json_loads utf8_stdout
       (fun _ _ => Value {| status_code := 200;
                            response_json := Raise RequestsJSONDecodeError |})
       (JStr "fever") = (Returned v, tr) /\
     is_error v = true /\
     field "language" v = Some (JStr "English")).
Proof.
  split.
  - apply (C8_error_paths_language_English sample_json_loads utf8_stdout
             (post_always (envelope_of (JStr sorry_text))) "fever").
    left. reflexivity.
  - apply (C8_error_paths_language_English sample_json_loads utf8_stdout
             (fun _ _ => Value {| status_code := 200;
                                  response_json :=
                                    Raise RequestsJSONDecodeError |})
             "fever").
    right. reflexivity.
Defined.

(** ** C9: the answer of [POST /predict] *)

(** When the client returns a value, the view answers with status 200 and
    that value, written with sorted keys, as its body. *)
Lemma predict_returned
    (json_loads : string -> result json)
    (stdout_encodes : json -> bool)
    (post : json -> nat -> result response)
    (d : list (string * json)) (symptoms v : json) (tr : list event) :
  lookup "symptoms" d = Some symptoms ->
  predict_disease_with_gemini json_loads stdout_encodes post symptoms =
  (Returned v, tr) ->
  predict json_loads stdout_encodes post (JDict d) =
  Returned {| http_status := 200; http_body := sort_keys v |}.
Proof.
  intros Hsym Hrun. unfold predict. cbn [get]. rewrite Hsym, Hrun.
  reflexivity.
Qed.

(** A body of another shape than the five fields is delivered as it is:
    here the answer is a 200 whose body is what the text decodes to. *)
Lemma predict_delivers_any_shape
    (json_loads : string -> result json)
    (stdout_encodes : json -> bool)
    (post : json -> nat -> result response)
    (d : list (string * json)) (s : string) (r : response) (text : string)
    (v : json) :
  lookup "symptoms" d = Some (JStr s) ->
  post (JStr s) 0%nat = Value r ->
  raise_for_status r = Value tt ->
  result_text_of r = Value (JStr text) ->
  json_loads text = Value v ->
  predict json_loads stdout_encodes post (JDict d) =
  Returned {| http_status := 200; http_body := sort_keys v |}.
Proof.
  intros Hsym Hp Hs Ht Hl.
  apply (predict_returned _ _ _ _ _ _ [Post 0] Hsym).
  rewrite (run_after_failures _ _ _ _ 0%nat (Returned v));
    [ reflexivity | lia | intros j Hj0; lia | ].
  exact (attempt_step_decoded _ _ _ _ _ _ _ _ _ Hp Hs Ht Hl).
Qed.

(** C9.  The specification states that the view always answers with status
    200 and the five fields.  The view has no error branch of its own, so
    every defect of the client shows through it: when the endpoint answers
    with an empty [candidates] list the client raises [IndexError], and so
    does the view, which produces no 200 answer at all. *)
Theorem C9_view_raises_with_client
    (json_loads : string -> result json)
    (stdout_encodes : json -> bool)
    (post : json -> nat -> result response)
    (d : list (string * json)) (s : string) (r : response)
    (envelope : list (string * json)) :
  lookup "symptoms" d = Some (JStr s) ->
  post (JStr s) 0%nat = Value r ->
  raise_for_status r = Value tt ->
  response_json r = Value (JDict envelope) ->
  lookup "candidates" envelope = Some (JList []) ->
  predict json_loads stdout_encodes post (JDict d) = Raised IndexError.
Proof.
  intros Hsym Hp Hs Hj Hc. unfold predict. cbn [get]. rewrite Hsym.
  rewrite (run_after_failures _ _ _ _ 0%nat (Raised IndexError));
    [ reflexivity | lia | intros j Hj0; lia | ].
  unfold attempt_step, fetch_text, result_text_of, bind.
  rewrite Hp, Hs, Hj. cbn [get]. rewrite Hc. reflexivity.
Qed.

Lemma C9_view_raises_with_client_witness :
  predict sample_json_loads utf8_stdout
    (post_always (JDict [("candidates", JList [])]))
    (JDict [("symptoms", JStr "fever and headache")]) = Raised IndexError.
Proof.
  apply (C9_view_raises_with_client sample_json_loads utf8_stdout
           (post_always (JDict [("candidates", JList [])]))
           [("symptoms", JStr "fever and headache")] "fever and headache"
           (ok_response (JDict [("candidates", JList [])]))
           [("candidates", JList [])]); reflexivity.
Defined.

(** ** C10: the sleep after the last attempt *)




(** * Further properties of the client and of the view *)

(** ** The shape of a run *)

Lemma on_exception_raised stdout_encodes e rt e' :
  on_exception stdout_encodes e rt = Done (Raised e') ->
  is_RequestException e' = false /\ is_JSONDecodeError e' = false.
Proof.
  unfold on_exception, except_clause.
  destruct (is_RequestException e) eqn:Hr; [ discriminate | ].
  destruct (is_JSONDecodeError e) eqn:Hd.
  - destruct rt as [text | ]; [ destruct (stdout_encodes text) | ];
      intros H; inversion H; split; reflexivity.
  - intros H; inversion H; subst e'. split; assumption.
Qed.

Lemma attempt_step_raised json_loads stdout_encodes post s calls rt e :
  attempt_step json_loads stdout_encodes post s calls rt = Done (Raised e) ->
  is_RequestException e = false /\ is_JSONDecodeError e = false.
Proof.
  unfold attempt_step.
  destruct (fetch_text post s calls) as [text | e0].
  - destruct (json_loads_value json_loads text) as [v | e0];
      [ discriminate | apply on_exception_raised ].
  - apply on_exception_raised.
Qed.

Lemma while_loop_raised json_loads stdout_encodes post fuel :
  forall s retries delay rt calls e tr,
    while_loop json_loads stdout_encodes post fuel s retries delay rt calls
    = (Raised e, tr) ->
    is_RequestException e = false /\ is_JSONDecodeError e = false.
Proof.
  induction fuel as [ | fuel IH]; intros s retries delay rt calls e tr.
  - discriminate.
  - rewrite while_loop_step.
    destruct (retries <? max_retries); [ | discriminate ].
    destruct (attempt_step json_loads stdout_encodes post s calls rt)
      as [o | rt'] eqn:Ha.
    + intros H. inversion H; subst o tr.
      exact (attempt_step_raised _ _ _ _ _ _ _ Ha).
    + destruct (while_loop json_loads stdout_encodes post fuel s (retries + 1)
                           (delay * 2) rt' (S calls)) as [o' tr'] eqn:Hw.
      intros H. inversion H; subst o' tr. exact (IH _ _ _ _ _ _ _ Hw).
Qed.

(** Three rounds of the loop, whatever sends it round again. *)
Lemma run_three_rounds json_loads stdout_encodes post s rt1 rt2 rt3 :
  attempt_step json_loads stdout_encodes post s 0 None = Again rt1 ->
  attempt_step json_loads stdout_encodes post s 1 rt1 = Again rt2 ->
  attempt_step json_loads stdout_encodes post s 2 rt2 = Again rt3 ->
  predict_disease_with_gemini json_loads stdout_encodes post s =
  (Returned connect_error_result,
   [Post 0; Sleep 1; Post 1; Sleep 2; Post 2; Sleep 4]).
Proof.
  intros H1 H2 H3. unfold predict_disease_with_gemini.
  change loop_fuel with 4%nat.
  rewrite (while_loop_again _ _ _ _ _ _ _ _ rt1) by (reflexivity || exact H1).
  rewrite (while_loop_again _ _ _ _ _ _ _ _ rt2) by (reflexivity || exact H2).
  rewrite (while_loop_again _ _ _ _ _ _ _ _ rt3) by (reflexivity || exact H3).
  rewrite while_loop_exhausted by (unfold max_retries; lia).
  reflexivity.
Qed.


(** X1.  Whatever the decoder and the endpoint do, a call ends, and its
    trace is one of four: one, two or three calls of [requests.post] with
    sleeps of 1 and 2 between them, or three calls followed by a sleep of 4,
    in which case the connect error dictionary is returned.  So there are
    never more than three attempts nor more than 7 time-units of sleep. *)
Theorem run_has_one_of_four_traces
    (json_loads : string -> result json)
    (stdout_encodes : json -> bool)
    (post : json -> nat -> result response) (s : json) :
  fst (predict_disease_with_gemini json_loads stdout_encodes post s)
  <> OutOfFuel /\
  (snd (predict_disease_with_gemini json_loads stdout_encodes post s)
   = [Post 0] \/
   snd (predict_disease_with_gemini json_loads stdout_encodes post s)
   = [Post 0; Sleep 1; Post 1] \/
   snd (predict_disease_with_gemini json_loads stdout_encodes post s)
   = [Post 0; Sleep 1; Post 1; Sleep 2; Post 2] \/
   predict_disease_with_gemini json_loads stdout_encodes post s
   = (Returned connect_error_result,
      [Post 0; Sleep 1; Post 1; Sleep 2; Post 2; Sleep 4])) /\
  (1 <= attempts
          (snd (predict_disease_with_gemini json_loads stdout_encodes post s))
   <= 3)%nat /\
  total_sleep (snd (predict_disease_with_gemini json_loads stdout_encodes post s))
  <= 7.
Proof.
  split; [ apply predict_disease_with_gemini_total | ].
  destruct (attempt_step json_loads stdout_encodes post s 0 None)
    as [o1 | rt1] eqn:H1.
  { assert (Hrun : predict_disease_with_gemini json_loads stdout_encodes post s
                   = (o1, [Post 0])).
    { unfold predict_disease_with_gemini. change loop_fuel with 4%nat.
      apply while_loop_done; [ reflexivity | exact H1 ]. }
    rewrite Hrun. cbn. repeat split; auto; lia. }
  destruct (attempt_step json_loads stdout_encodes post s 1 rt1)
    as [o2 | rt2] eqn:H2.
  { assert (Hrun : predict_disease_with_gemini json_loads stdout_encodes post s
                   = (o2, [Post 0; Sleep 1; Post 1])).
    { unfold predict_disease_with_gemini. change loop_fuel with 4%nat.
      rewrite (while_loop_again _ _ _ _ _ _ _ _ rt1)
        by (reflexivity || exact H1).
      rewrite (while_loop_done _ _ _ _ _ _ _ _ _ o2)
        by (reflexivity || exact H2).
      reflexivity. }
    rewrite Hrun. cbn. repeat split; auto; lia. }
  destruct (attempt_step json_loads stdout_encodes post s 2 rt2)
    as [o3 | rt3] eqn:H3.
  { assert (Hrun : predict_disease_with_gemini json_loads stdout_encodes post s
                   = (o3, [Post 0; Sleep 1; Post 1; Sleep 2; Post 2])).
    { unfold predict_disease_with_gemini. change loop_fuel with 4%nat.
      rewrite (while_loop_again _ _ _ _ _ _ _ _ rt1)
        by (reflexivity || exact H1).
      rewrite (while_loop_again _ _ _ _ _ _ _ _ rt2)
        by (reflexivity || exact H2).
      rewrite (while_loop_done _ _ _ _ _ _ _ _ _ o3)
        by (reflexivity || exact H3).
      reflexivity. }
    rewrite Hrun. cbn. repeat split; auto; lia. }
  rewrite (run_three_rounds _ _ _ _ _ _ _ H1 H2 H3). cbn.
  repeat split; auto 6; lia.
Qed.

(** ** Which exceptions leave the client *)

Lemma caught_classes_never_escape_aux json_loads stdout_encodes post s e :
  fst (predict_disease_with_gemini json_loads stdout_encodes post s)
  = Raised e ->
  is_RequestException e = false /\ is_JSONDecodeError e = false.
Proof.
  unfold predict_disease_with_gemini.
  destruct (while_loop json_loads stdout_encodes post loop_fuel s 0 1 None 0)
    as [o tr] eqn:Hw.
  cbn [fst]. intros ->. exact (while_loop_raised _ _ _ _ _ _ _ _ _ _ _ Hw).
Qed.

(** X2.  An exception that leaves [predict_disease_with_gemini] is never a
    [RequestException] and never a [json.JSONDecodeError]: those two
    classes are always caught. *)
Theorem caught_classes_never_escape
    (json_loads : string -> result json)
    (stdout_encodes : json -> bool)
    (post : json -> nat -> result response) (s : json) (e : exn) :
  fst (predict_disease_with_gemini json_loads stdout_encodes post s)
  = Raised e ->
  is_RequestException e = false /\ is_JSONDecodeError e = false.
Proof.
  exact (caught_classes_never_escape_aux json_loads stdout_encodes post s e).
Qed.

Lemma caught_classes_never_escape_witness :
  is_RequestException IndexError = false /\
  is_JSONDecodeError IndexError = false.
Proof.
  apply (caught_classes_never_escape sample_json_loads utf8_stdout
           (post_always (JDict [("candidates", JList [])])) (JStr "fever")
           IndexError).
  reflexivity.
Defined.

Lemma get_raises o k default e :
  get o k default = Raise e -> e = AttributeError.
Proof.
  destruct o; cbn [get]; intros H; inversion H; reflexivity.
Qed.








(** ** The order of the [except] clauses *)






(** ** What a call depends on *)

Lemma attempt_step_post json_loads stdout_encodes post post' s calls rt :
  post s calls = post' s calls ->
  attempt_step json_loads stdout_encodes post s calls rt =
  attempt_step json_loads stdout_encodes post' s calls rt.
Proof.
  intros H. unfold attempt_step, fetch_text. rewrite H. reflexivity.
Qed.

(** X7.  A call looks at no more than the first three answers of the
    endpoint: two endpoints that agree on the calls 0, 1 and 2 give the
    same result and the same trace. *)
Theorem only_three_answers_matter
    (json_loads : string -> result json)
    (stdout_encodes : json -> bool)
    (post post' : json -> nat -> result response) (s : json) :
  (forall k, (k < 3)%nat -> post s k = post' s k) ->
  predict_disease_with_gemini json_loads stdout_encodes post s =
  predict_disease_with_gemini json_loads stdout_encodes post' s.
Proof.
  intros Hagree. unfold predict_disease_with_gemini.
  change loop_fuel with 4%nat.
  assert (H : forall k rt, (k < 3)%nat ->
            attempt_step json_loads stdout_encodes post s k rt =
            attempt_step json_loads stdout_encodes post' s k rt)
    by (intros k rt Hk; apply attempt_step_post, Hagree, Hk).
  rewrite (while_loop_step _ _ post), (while_loop_step _ _ post').
  rewrite (H 0%nat) by lia.
  destruct (attempt_step json_loads stdout_encodes post' s 0 None)
    as [o1 | rt1];
    [ reflexivity | ].
  rewrite (while_loop_step _ _ post), (while_loop_step _ _ post').
  rewrite (H 1%nat) by lia.
  destruct (attempt_step json_loads stdout_encodes post' s 1 rt1) as [o2 | rt2];
    [ reflexivity | ].
  rewrite (while_loop_step _ _ post), (while_loop_step _ _ post').
  rewrite (H 2%nat) by lia.
  destruct (attempt_step json_loads stdout_encodes post' s 2 rt2) as [o3 | rt3];
    [ reflexivity | ].
  rewrite (while_loop_step _ _ post), (while_loop_step _ _ post').
  reflexivity.
Qed.

Lemma only_three_answers_matter_witness :
  predict_disease_with_gemini sample_json_loads utf8_stdout
    (post_third_time (envelope_of (JStr common_cold_text))) (JStr "fever") =
  predict_disease_with_gemini sample_json_loads utf8_stdout
    (fun _ n => match n with
                | O => Raise ConnectionError
                | S O => Value unavailable
                | S (S O) =>
                    Value (ok_response (envelope_of (JStr common_cold_text)))
                | _ => Raise Timeout
                end) (JStr "fever").
Proof.
  apply (only_three_answers_matter sample_json_loads utf8_stdout
           (post_third_time (envelope_of (JStr common_cold_text)))
           (fun _ n => match n with
                       | O => Raise ConnectionError
                       | S O => Value unavailable
                       | S (S O) =>
                           Value (ok_response
                                    (envelope_of (JStr common_cold_text)))
                       | _ => Raise Timeout
                       end) (JStr "fever")).
  intros k Hk. destruct k as [ | [ | [ | k]]]; try reflexivity. lia.
Defined.

(** ** The view, for any request body *)

(** X8.  Whatever the body of the request, the decoder and the endpoint,
    the view of [/predict] either answers with status 200 or raises, and an
    exception it raises is never a [RequestException] nor a
    [json.JSONDecodeError]. *)
Theorem view_answers_200_or_raises
    (json_loads : string -> result json)
    (stdout_encodes : json -> bool)
    (post : json -> nat -> result response) (request_json : json) :
  (exists v, predict json_loads stdout_encodes post request_json =
             Returned {| http_status := 200; http_body := v |}) \/
  (exists e, predict json_loads stdout_encodes post request_json = Raised e /\
             is_RequestException e = false /\
             is_JSONDecodeError e = false).
Proof.
  unfold predict.
  destruct (get request_json "symptoms" JNull) as [symptoms | e] eqn:Hg.
  - pose proof (predict_disease_with_gemini_total json_loads stdout_encodes
                  post symptoms) as Htotal.
    pose proof (caught_classes_never_escape_aux json_loads stdout_encodes
                  post symptoms) as Hraise.
    destruct (fst (predict_disease_with_gemini json_loads stdout_encodes post
                     symptoms)) as [v | e | ].
    + left. exists (sort_keys v). reflexivity.
    + right. exists e. split; [ reflexivity | exact (Hraise e eq_refl) ].
    + exfalso. apply Htotal. reflexivity.
  - right. exists e. rewrite (get_raises _ _ _ _ Hg). repeat split.
Qed.

(** ** The script of the chat page *)

Lemma addAIMessage_fallback to_string :
  addAIMessage to_string fallback =
  Some [AppendChild
          (ai_element
             (match responseHtml to_string fallback with
              | Some html => html
              | None => EmptyString
              end));
        ScrollToBottom] /\
  responseHtml to_string fallback <> None.
Proof.
  split; [ reflexivity | discriminate ].
Qed.

Lemma requests_app evs evs' :
  requests (evs ++ evs') = requests evs ++ requests evs'.
Proof.
  induction evs as [ | ev evs IH]; [ reflexivity | ].
  destruct ev; cbn [app requests]; rewrite IH; reflexivity.
Qed.

Lemma addAIMessage_requests to_string data evs :
  addAIMessage to_string data = Some evs -> requests evs = [].
Proof.
  unfold addAIMessage, obind.
  destruct (responseHtml to_string data); [ | discriminate ].
  intros H. inversion H. reflexivity.
Qed.

Lemma try_block_requests to_string r :
  requests (fst (try_block to_string r)) = [].
Proof.
  destruct r as [ | status [result | ]]; cbn [try_block fst requests];
    try reflexivity; destruct (response_ok status); try reflexivity.
  destruct (addAIMessage to_string result) as [evs | ] eqn:Ha;
    [ | reflexivity ].
  cbn [fst removeLoadingIndicator app requests].
  exact (addAIMessage_requests _ _ _ Ha).
Qed.

Lemma items_of_strings to_string l :
  forallb (fun p => is_string (Some p)) l = true ->
  exists html, items to_string l = Some html.
Proof.
  induction l as [ | p l IH]; cbn [forallb items]; intros H.
  - eexists. reflexivity.
  - apply andb_prop in H. destruct H as [Hp Hl].
    destruct p as [ | | | | t | | ]; try discriminate Hp.
    destruct (IH Hl) as [html ->]. eexists. reflexivity.
Qed.

(** X10.  [sendMessage] sends at most one request.  When the text of the
    input field is blank it does nothing at all; otherwise it sends exactly
    one request, whose body is the object with the trimmed text as its
    [symptoms], so that the view never receives an empty symptom string
    from the page. *)
Theorem sendMessage_sends_one_request_unless_blank
    (trim : string -> string) (to_string : json -> option string)
    (server : json -> fetch_result) (value : string) :
  (trim value = "" ->
   sendMessage trim to_string server value = []) /\
  (trim value <> "" ->
   requests (sendMessage trim to_string server value) =
   [JDict [("symptoms", JStr (trim value))]]).
Proof.
  unfold sendMessage. split.
  - intros ->. reflexivity.
  - intros Hne.
    destruct (String.eqb_spec (trim value) "") as [Heq | _];
      [ contradiction | ].
    cbn [addUserMessage addLoadingIndicator scrollToBottom app requests].
    f_equal.
    pose proof (try_block_requests to_string
                  (server (JDict [("symptoms", JStr (trim value))]))) as Ht.
    destruct (try_block to_string
                (server (JDict [("symptoms", JStr (trim value))])))
      as [evs threw].
    cbn [fst] in Ht. rewrite requests_app, Ht.
    destruct threw; reflexivity.
Qed.

(** X11.  For a text that is not blank, [sendMessage] appends the bubble
    of the user, then the loading indicator, then exactly one answer, and
    calls [removeLoadingIndicator] just before it appends the answer.  The
    answer is the HTML of the result when the request succeeds with a
    status from 200 to 299 and a JSON body that can be shown, and the HTML
    of the fixed "Could not connect" object in every other case. *)
Theorem sendMessage_shows_one_answer
    (trim : string -> string) (to_string : json -> option string)
    (server : json -> fetch_result) (value : string) :
  trim value <> "" ->
  exists pre html,
    sendMessage trim to_string server value =
    pre ++ [RemoveLoadingIndicator; AppendChild (ai_element html);
            ScrollToBottom] /\
    appended pre = [user_element (trim value); loading_element] /\
    shown_html to_string (server (JDict [("symptoms", JStr (trim value))]))
    = Some html.
Proof.
  intros Hne. unfold sendMessage.
  destruct (String.eqb_spec (trim value) "") as [Heq | _];
    [ contradiction | ].
  set (body := JDict [("symptoms", JStr (trim value))]).
  set (start := addUserMessage (trim value) ++ [SetInputValue ""] ++
                addLoadingIndicator ++ [Fetch body]).
  assert (Hstart : appended start
                   = [user_element (trim value); loading_element])
    by reflexivity.
  assert (Hcatch : forall evs,
             appended evs = [] ->
             exists pre html,
               addUserMessage (trim value) ++ [SetInputValue ""] ++
               addLoadingIndicator ++ Fetch body :: evs ++ catch_block to_string
               = pre ++ [RemoveLoadingIndicator; AppendChild (ai_element html);
                         ScrollToBottom] /\
               appended pre = [user_element (trim value); loading_element] /\
               responseHtml to_string fallback = Some html).
  { intros evs Hevs.
    exists (start ++ evs ++ [ConsoleError]). eexists. split; [ | split ].
    - unfold start, catch_block. cbn [addAIMessage]. unfold obind.
      cbn [responseHtml]. rewrite <- !app_assoc. reflexivity.
    - clear -Hevs. induction evs as [ | ev evs IH].
      + reflexivity.
      + destruct ev; cbn in Hevs |- *; try discriminate; exact (IH Hevs).
    - reflexivity. }
  destruct (server body) as [ | status [result | ]];
    cbn [try_block shown_html].
  - exact (Hcatch [] eq_refl).
  - destruct (response_ok status); [ | exact (Hcatch [] eq_refl) ].
    unfold addAIMessage, obind.
    destruct (responseHtml to_string result) as [html | ].
    + exists start, html. split; [ | split ]; reflexivity.
    + exact (Hcatch [RemoveLoadingIndicator] eq_refl).
  - destruct (response_ok status); exact (Hcatch [] eq_refl).
Qed.

Lemma sendMessage_sends_one_request_unless_blank_witness :
  sendMessage sample_trim sample_to_string
    (fun _ => FetchResponse 200 (Some common_cold)) "" = [] /\
  requests (sendMessage sample_trim sample_to_string
              (fun _ => FetchRejected) "fever") =
  [JDict [("symptoms", JStr (sample_trim "fever"))]].
Proof.
  split.
  - apply (proj1 (sendMessage_sends_one_request_unless_blank sample_trim
                    sample_to_string
                    (fun _ => FetchResponse 200 (Some common_cold)) "")).
    reflexivity.
  - apply (proj2 (sendMessage_sends_one_request_unless_blank sample_trim
                    sample_to_string (fun _ => FetchRejected) "fever")).
    discriminate.
Defined.

Lemma sendMessage_shows_one_answer_witness :
  exists pre html,
    sendMessage sample_trim sample_to_string
      (fun _ => FetchResponse 200 (Some common_cold)) "runny nose" =
    pre ++ [RemoveLoadingIndicator; AppendChild (ai_element html);
            ScrollToBottom] /\
    appended pre = [user_element (sample_trim "runny nose"); loading_element]
    /\
    shown_html sample_to_string
      ((fun _ => FetchResponse 200 (Some common_cold))
         (JDict [("symptoms", JStr (sample_trim "runny nose"))]))
    = Some html.
Proof.
  apply (sendMessage_shows_one_answer sample_trim sample_to_string
           (fun _ => FetchResponse 200 (Some common_cold)) "runny nose").
  discriminate.
Defined.

(** X12.  A result as the page expects it can always be shown: when
    [predicted_disease] and [description] are strings and, unless the
    former is "Error", [precautions] and [home_remedies] are arrays of
    strings, building the HTML does not throw.  It does throw when the
    result is [null], and when [predicted_disease] is not "Error" and
    [precautions] or [home_remedies] is not an array. *)
Theorem responseHtml_shows_expected_results
    (to_string : json -> option string) (data : json) :
  (displayable data = true ->
   exists html, responseHtml to_string data = Some html) /\
  (data = JNull \/
   strict_ne_Error (field "predicted_disease" data) = true /\
   (is_list (field "precautions" data) = false \/
    is_list (field "home_remedies" data) = false) ->
   responseHtml to_string data = None).
Proof.
  split.
  - unfold displayable, responseHtml, obind.
    destruct data as [ | b | n | bits | t | l | d];
      cbn [field is_string andb]; try discriminate.
    cbn [get_property].
    destruct (lookup "predicted_disease" d) as [[ | | | | disease | | ] | ];
      cbn [is_string andb]; try discriminate.
    destruct (lookup "description" d) as [[ | | | | description | | ] | ];
      cbn [is_string andb]; try discriminate.
    cbn [template].
    destruct (strict_ne_Error (Some (JStr disease))); cbn [negb orb];
      [ | intros _; eexists; reflexivity ].
    intros H. apply andb_prop in H. destruct H as [Hp Hr].
    destruct (lookup "precautions" d) as [[ | | | | | lp | ] | ];
      try discriminate Hp.
    destruct (lookup "home_remedies" d) as [[ | | | | | lr | ] | ];
      try discriminate Hr.
    cbn [list_items is_list_of_strings] in *.
    destruct (items_of_strings to_string lp Hp) as [hp ->].
    destruct (items_of_strings to_string lr Hr) as [hr ->].
    eexists. reflexivity.
  - unfold responseHtml, obind.
    intros [-> | [Hne Hlists]]; [ reflexivity | ].
    destruct data as [ | b | n | bits | t | l | d];
      cbn [get_property field strict_ne_Error list_items] in *;
      try reflexivity.
    rewrite Hne.
    destruct (template to_string (lookup "predicted_disease" d));
      [ | reflexivity ].
    destruct (template to_string (lookup "description" d));
      [ | reflexivity ].
    destruct (lookup "precautions" d) as [[ | | | | | lp | ] | ];
      cbn [list_items]; try reflexivity.
    destruct (items to_string lp); [ | reflexivity ].
    destruct (lookup "home_remedies" d) as [[ | | | | | lr | ] | ];
      cbn [list_items]; try reflexivity.
    destruct Hlists as [H | H]; discriminate H.
Qed.

Lemma responseHtml_shows_expected_results_witness :
  (exists html, responseHtml sample_to_string common_cold = Some html) /\
  responseHtml sample_to_string (JDict []) = None.
Proof.
  split.
  - apply (proj1 (responseHtml_shows_expected_results sample_to_string
                    common_cold)).
    reflexivity.
  - apply (proj2 (responseHtml_shows_expected_results sample_to_string
                    (JDict []))).
    right. split; [ reflexivity | left; reflexivity ].
Defined.

(** X13.  When the server answers a text that is not blank with a status
    from 200 to 299 and a result whose [predicted_disease] is "Error", as
    the two error dictionaries of the client are, and whose [description]
    can be converted to a string, as every string can, the page shows the
    description alone, in the red paragraph: the elements appended are the
    bubble of the user, the loading indicator and that answer, and the
    lists of the result are not looked at. *)
Theorem sendMessage_shows_error_description
    (trim : string -> string) (to_string : json -> option string)
    (server : json -> fetch_result) (value : string)
    (status : Z) (data : json) (description : string) :
  trim value <> "" ->
  server (JDict [("symptoms", JStr (trim value))])
  = FetchResponse status (Some data) ->
  response_ok status = true ->
  field "predicted_disease" data = Some (JStr "Error") ->
  template to_string (field "description" data) = Some description ->
  appended (sendMessage trim to_string server value) =
  [user_element (trim value); loading_element;
   ai_element (error_html description)].
Proof.
  intros Hne Hserver Hok Herr Hdesc. unfold sendMessage.
  destruct (String.eqb_spec (trim value) "") as [Heq | _];
    [ contradiction | ].
  rewrite Hserver. cbn [try_block]. rewrite Hok.
  destruct data as [ | b | n | bits | t | l | d]; try discriminate Herr.
  cbn [field] in Herr, Hdesc |- *.
  unfold addAIMessage, responseHtml, obind. cbn [get_property].
  rewrite Herr. cbn [strict_ne_Error String.eqb Ascii.eqb Bool.eqb negb].
  rewrite Hdesc. reflexivity.
Qed.

Lemma sendMessage_shows_error_description_witness :
  appended (sendMessage sample_trim sample_to_string
              (fun _ => FetchResponse 200 (Some connect_error_result))
              "fever") =
  [user_element (sample_trim "fever"); loading_element;
   ai_element
     (error_html
        "Failed to connect to the prediction service after multiple retries.")].
Proof.
  apply (sendMessage_shows_error_description sample_trim sample_to_string
           (fun _ => FetchResponse 200 (Some connect_error_result)) "fever"
           200 connect_error_result
           "Failed to connect to the prediction service after multiple retries.");
    try reflexivity.
  discriminate.
Defined.
